(** * visa_adapter: a line-oriented bridge from standard input to a VISA instrument

    Shallow embedding of [python/visa_adapter.py] and proofs of its
    behavioural properties.

    The script is modelled in a small state-and-exception monad.  The
    state is the "world": the state of the pyvisa collaborator, the text
    waiting on standard input and a chronological log of everything the
    script does that can be observed from outside (collaborator calls
    with their outcome, lines printed on the two output streams, flushes).
    Python exceptions are results of the monad; [try ... except Exception]
    is a handler that catches [Exception] but lets [SystemExit] through.

    The collaborator and the argument parser are interfaces: the
    properties hold for every behaviour of pyvisa and every verdict of
    argparse.  Only calls into pyvisa raise; writing to the standard
    streams and reading standard input always succeed.  A line on an
    output stream is one call of [print]. *)

From Stdlib Require Import Ascii String List ZArith NArith Bool Lia.
Import ListNotations.

Set Implicit Arguments.

(** ** Python strings *)

(** A Python [str] is a sequence of Unicode code points. *)
Definition char := N.
Definition str := list char.

Definition ch (a : ascii) : char := N_of_ascii a.

(** String literals of the script. *)
Fixpoint lit (s : string) : str :=
  match s with
  | EmptyString => []
  | String a s' => ch a :: lit s'
  end.

(** [c.isspace()]: the code points that [str.strip()] removes. *)
Definition isspace (c : char) : bool :=
  (((9 <=? c) && (c <=? 13)) || ((28 <=? c) && (c <=? 32))
  || (c =? 133) || (c =? 160) || (c =? 5760)
  || ((8192 <=? c) && (c <=? 8202))
  || (c =? 8232) || (c =? 8233) || (c =? 8239) || (c =? 8287)
  || (c =? 12288))%N.

Fixpoint lstrip (s : str) : str :=
  match s with
  | [] => []
  | c :: s' => if isspace c then lstrip s' else s
  end.

Definition rstrip (s : str) : str := rev (lstrip (rev s)).

(** [s.strip()] *)
Definition strip (s : str) : str := rstrip (lstrip s).

(** [s.startswith(p)] *)
Fixpoint startswith (p s : str) : bool :=
  match p, s with
  | [], _ => true
  | _ :: _, [] => false
  | a :: p', b :: s' => N.eqb a b && startswith p' s'
  end.

(** [p in s] for a one-character [p]. *)
Definition contains (c : char) (s : str) : bool := existsb (N.eqb c) s.

(** [not s] *)
Definition is_empty (s : str) : bool :=
  match s with [] => true | _ => false end.

(** ** Exceptions and the monad of the script *)

(** What a call into pyvisa does: it returns, or raises an [Exception]
    whose [str()] is the carried message. *)
Inductive result (A : Type) : Type :=
| Ok (a : A)
| Err (msg : str).
Arguments Err {A} msg.

(** The pyvisa collaborator, seen through the six entry points the script
    uses.  [V] is the hidden state of the driver stack and the instrument;
    every entry point may change it, also when it raises.
    [pyvisa_installed] tells whether [import pyvisa] succeeds. *)
Class Visa (V : Type) : Type := {
  pyvisa_installed : bool;
  ResourceManager : V -> result unit * V;
  open_resource : str -> V -> result unit * V;
  set_timeout : Z -> V -> result unit * V;
  query : str -> V -> result str * V;
  write : str -> V -> result unit * V;
  close : V -> result unit * V
}.

Inductive call : Type :=
| CResourceManager
| COpen (resource : str)
| CSetTimeout (ms : Z)
| CQuery (command : str)
| CWrite (command : str)
| CClose.

Inductive reply : Type :=
| Returns
| Responds (response : str)
| Raises (msg : str).

(** What can be observed of a run.  [Stdout] and [Stderr] are the calls of
    [print] made by the script; the help text and the usage message that
    [argparse] writes itself are [PrintHelp] and [PrintUsage]. *)
Inductive event : Type :=
| Call (c : call) (r : reply)
| Stdout (text : str)
| Stderr (text : str)
| Flush
| PrintHelp
| PrintUsage.

Inductive exc : Type :=
| Exception (msg : str)
| SystemExit (code : Z).

Inductive res (A : Type) : Type :=
| Ret (a : A)
| Raise (e : exc).
Arguments Raise {A} e.

Record world (V : Type) : Type := World {
  visa : V;
  stdin : list str;
  log : list event
}.

Definition M (V A : Type) : Type := world V -> res A * world V.

Definition ret {V A} (a : A) : M V A := fun w => (Ret a, w).

Definition bind {V A B} (m : M V A) (k : A -> M V B) : M V B :=
  fun w =>
    match m w with
    | (Ret a, w') => k a w'
    | (Raise e, w') => (Raise e, w')
    end.

Declare Scope py_scope.
Delimit Scope py_scope with py.
Notation "x <- m ;; k" := (bind m (fun x => k))
  (at level 61, m at next level, right associativity) : py_scope.
Notation "m ;; k" := (bind m (fun _ => k))
  (at level 61, right associativity) : py_scope.
Local Open Scope py_scope.

(** [try: body except Exception as e: handler(str(e))] *)
Definition try_except {V A} (body : M V A) (handler : str -> M V A) : M V A :=
  fun w =>
    match body w with
    | (Raise (Exception msg), w') => handler msg w'
    | other => other
    end.

(** [sys.exit(code)] *)
Definition sys_exit {V A} (code : Z) : M V A :=
  fun w => (Raise (SystemExit code), w).

Definition emit {V} (e : event) : M V unit :=
  fun w => (Ret tt, World (visa w) (stdin w) (log w ++ [e])).

(** [print(text)] and [print(text, file=sys.stderr)] *)
Definition print {V} (text : str) : M V unit := emit (Stdout text).
Definition print_err {V} (text : str) : M V unit := emit (Stderr text).

(** [sys.stdout.flush()] *)
Definition sys_stdout_flush {V} : M V unit := emit Flush.

(** [sys.stdin.readlines()]: everything waiting on standard input, one
    element per line, each with its line terminator. *)
Definition readlines {V} : M V (list str) :=
  fun w => (Ret (stdin w), World (visa w) [] (log w)).

Definition reply_of {A} (f : A -> reply) (r : result A) : reply :=
  match r with
  | Ok a => f a
  | Err msg => Raises msg
  end.

(** A call into the collaborator: run it on the driver state, log the call
    with its outcome, and turn a failure into a raised [Exception]. *)
Definition invoke {V A} (c : call) (f : A -> reply)
    (op : V -> result A * V) : M V A :=
  fun w =>
    let (r, v') := op (visa w) in
    let w' := World v' (stdin w) (log w ++ [Call c (reply_of f r)]) in
    match r with
    | Ok a => (Ret a, w')
    | Err msg => (Raise (Exception msg), w')
    end.

(** ** Command line *)

(** The namespace built by the parser of [main]: a positional [resource]
    and an integer option [--timeout] (5000 when it is not given). *)
Record Namespace : Type := {
  resource : str;
  timeout : Z
}.

(** [argparse] is library code.  What the script sees of it is the outcome
    of [parser.parse_args()] on [sys.argv[1:]]: a namespace, or the end of
    the process, through [parser.exit()] with status 0 once the help text
    is printed, or through [parser.error()] with status 2 after the usage
    message. *)
Inductive parse_outcome : Type :=
| Parsed (args : Namespace)
| HelpExit
| UsageError.

Class Argparse : Type := {
  parse_args : list str -> parse_outcome
}.

Section Adapter.

Context {V : Type} {visa_lib : Visa V} {argparse_lib : Argparse}.

Definition pyvisa_ResourceManager : M V unit :=
  invoke CResourceManager (fun _ => Returns) ResourceManager.
Definition rm_open_resource (resource : str) : M V unit :=
  invoke (COpen resource) (fun _ => Returns) (open_resource resource).
Definition inst_set_timeout (ms : Z) : M V unit :=
  invoke (CSetTimeout ms) (fun _ => Returns) (set_timeout ms).
Definition inst_query (command : str) : M V str :=
  invoke (CQuery command) Responds (query command).
Definition inst_write (command : str) : M V unit :=
  invoke (CWrite command) (fun _ => Returns) (write command).
Definition inst_close : M V unit :=
  invoke CClose (fun _ => Returns) close.

(** ** The script *)

(** The test guarding [continue]. *)
Definition skipped (line : str) : bool :=
  is_empty line || startswith (lit "#") line || startswith (lit "//") line.

(** One iteration of [for line in lines]. *)
Definition process_line (line0 : str) : M V unit :=
  let line := strip line0 in
  if skipped line then ret tt
  else
    (if contains (ch "?") line then
       try_except
         (response <- inst_query line ;;
          print (strip response))
         (fun e => print_err (lit "Error querying '" ++ line ++ lit "': " ++ e))
     else
       try_except
         (inst_write line)
         (fun e => print_err (lit "Error writing '" ++ line ++ lit "': " ++ e))) ;;
    sys_stdout_flush.

Fixpoint for_each (lines : list str) (body : str -> M V unit) : M V unit :=
  match lines with
  | [] => ret tt
  | line :: rest => body line ;; for_each rest body
  end.

(** The body of [main] after [args = parser.parse_args()]. *)
Definition main_body (args : Namespace) : M V unit :=
  try_except
    (pyvisa_ResourceManager ;;
     rm_open_resource (resource args) ;;
     inst_set_timeout (timeout args) ;;
     lines <- readlines ;;
     for_each lines process_line ;;
     inst_close)
    (fun e =>
       print_err (lit "Error: " ++ e) ;;
       sys_exit 1).

(** [args = parser.parse_args()] *)
Definition parser_parse_args (argv : list str) : M V Namespace :=
  match parse_args argv with
  | Parsed args => ret args
  | HelpExit => emit PrintHelp ;; sys_exit 0
  | UsageError => emit PrintUsage ;; sys_exit 2
  end.

(** [main()], on the command line [argv = sys.argv[1:]]. *)
Definition main (argv : list str) : M V unit :=
  args <- parser_parse_args argv ;;
  main_body args.

(** The module body: the guarded import, then [main()]. *)
Definition script (argv : list str) : M V unit :=
  if pyvisa_installed then main argv
  else
    print_err (lit "Error: 'pyvisa' module not found. Please install it using 'pip install pyvisa' or 'pip install pyvisa-py'.") ;;
    sys_exit 1.

End Adapter.

(** The status the interpreter exits with: 0 when the module body runs to
    its end, the argument of [sys.exit], 1 after an uncaught exception. *)
Definition exit_status {A} (r : res A) : Z :=
  match r with
  | Ret _ => 0
  | Raise (SystemExit code) => code
  | Raise (Exception _) => 1
  end.

(** A whole run of the script: command line [argv], collaborator in state
    [v0], [input] waiting on standard input, nothing observed yet. *)
Definition run {V} {visa_lib : Visa V} {argparse_lib : Argparse}
    (argv : list str) (v0 : V) (input : list str) : res unit * world V :=
  script argv (World v0 input []).

(** ** Observations on the log *)

Definition stdout_of (l : list event) : list str :=
  flat_map (fun e => match e with Stdout t => [t] | _ => [] end) l.

Definition stderr_of (l : list event) : list str :=
  flat_map (fun e => match e with Stderr t => [t] | _ => [] end) l.

(** The query and write calls, in the order they were made. *)
Definition dispatches (l : list event) : list call :=
  flat_map (fun e =>
    match e with
    | Call (CQuery c) _ => [CQuery c]
    | Call (CWrite c) _ => [CWrite c]
    | _ => []
    end) l.

(** The query calls with what came back. *)
Definition query_results (l : list event) : list (str * reply) :=
  flat_map (fun e =>
    match e with
    | Call (CQuery c) r => [(c, r)]
    | _ => []
    end) l.

(** The query and write calls that raised, with the message. *)
Definition failures (l : list event) : list (str * str) :=
  flat_map (fun e =>
    match e with
    | Call (CQuery c) (Raises m) => [(c, m)]
    | Call (CWrite c) (Raises m) => [(c, m)]
    | _ => []
    end) l.

Definition close_calls (l : list event) : list reply :=
  flat_map (fun e => match e with Call CClose r => [r] | _ => [] end) l.

(** The line the handler of the [try] block prints when [inst.close()]
    raises. *)
Definition fatal_lines (l : list event) : list str :=
  flat_map (fun e =>
    match e with
    | Call CClose (Raises m) => [lit "Error: " ++ m]
    | _ => []
    end) l.

(** What a successful query prints: its response, trimmed. *)
Definition printed (qr : str * reply) : list str :=
  match snd qr with
  | Responds s => [strip s]
  | _ => []
  end.

(** [needle in text] *)
Definition occurs_in (needle text : str) : Prop :=
  exists before after, text = before ++ needle ++ after.

(** A diagnostic names the command that failed and the error. *)
Definition reports (text : str) (failure : str * str) : Prop :=
  occurs_in (fst failure) text /\ occurs_in (snd failure) text.

(** The outcome of the first three statements of the [try] block, from
    the collaborator's side: its state once the timeout is set, or the
    message of the exception that stopped them. *)
Definition connection {V} {visa_lib : Visa V} (args : Namespace) (v0 : V) : result V :=
  match ResourceManager v0 with
  | (Err msg, _) => Err msg
  | (Ok _, v1) =>
    match open_resource (resource args) v1 with
    | (Err msg, _) => Err msg
    | (Ok _, v2) =>
      match set_timeout (timeout args) v2 with
      | (Err msg, _) => Err msg
      | (Ok _, v3) => Ok v3
      end
    end
  end.

(** How a line is sent once it is known not to be skipped. *)
Definition dispatch (line : str) : call :=
  if contains (ch "?") line then CQuery (strip line) else CWrite (strip line).

Definition survives (line : str) : bool := negb (skipped (strip line)).

(** The command string handed to [inst.query] or [inst.write]. *)
Definition command_of (c : call) : option str :=
  match c with
  | CQuery command | CWrite command => Some command
  | _ => None
  end.

(** ** A test bench *)

Fixpoint str_eqb (a b : str) : bool :=
  match a, b with
  | [], [] => true
  | x :: a', y :: b' => N.eqb x y && str_eqb a' b'
  | _, _ => false
  end.

(** A simulated instrument on one address.  It identifies itself, accepts
    any command, and wedges on [SYST:LOCK]: from then on every transfer
    times out and the session cannot be closed cleanly.  The timeout
    attribute is an unsigned 32-bit number of milliseconds. *)
Module Bench.

Record state : Type := { locked : bool }.

Definition fresh : state := {| locked := false |}.

Definition address : str := lit "GPIB0::12::INSTR".

Definition tmo : str :=
  lit "VI_ERROR_TMO (-1073807339): Timeout expired before operation completed.".
Definition rsrc_nfound : str :=
  lit "VI_ERROR_RSRC_NFOUND (-1073807343): Insufficient location information or the requested device or resource is not present in the system.".
Definition closing_failed : str :=
  lit "VI_ERROR_CLOSING_FAILED (-1073807338): Unable to deallocate the previously allocated data structures corresponding to this session or object reference.".

#[export] Instance bench : Visa state := {
  pyvisa_installed := true;
  ResourceManager v := (Ok tt, v);
  open_resource r v :=
    if str_eqb r address then (Ok tt, v)
    else (Err rsrc_nfound, v);
  set_timeout ms v :=
    if (ms <=? 4294967294)%Z then (Ok tt, v)
    else (Err (lit "timeout value is invalid"), v);
  query c v :=
    if locked v then (Err tmo, v)
    else if str_eqb c (lit "*IDN?")
    then (Ok (lit "ACME,Model1,SN1,v1" ++ [10%N]), v)
    else (Err tmo, v);
  write c v :=
    if locked v then (Err tmo, v)
    else (Ok tt, {| locked := str_eqb c (lit "SYST:LOCK") |});
  close v :=
    if locked v then (Err closing_failed, v)
    else (Ok tt, v)
}.

(** [int(s)] on ASCII decimal literals. *)
Fixpoint digits (s : str) (acc : Z) : option Z :=
  match s with
  | [] => Some acc
  | c :: s' =>
    if ((48 <=? c) && (c <=? 57))%N
    then digits s' (10 * acc + Z.of_N (c - 48))%Z
    else None
  end.

Definition int (s : str) : option Z :=
  match strip s with
  | [] => None
  | c :: t =>
    if (c =? 45)%N then
      match t with [] => None | _ => option_map Z.opp (digits t 0) end
    else if (c =? 43)%N then
      match t with [] => None | _ => digits t 0 end
    else digits (c :: t) 0
  end.

(** A parser for the bench: the usual ways of writing the command line
    [[-h] [--timeout TIMEOUT] resource], with 5000 ms when no timeout is
    given.  An argument that begins with a dash and is not a number is
    taken for an option. *)
Fixpoint scan (argv : list str) (res : option str) (ms : Z)
    (extra : bool) : parse_outcome :=
  match argv with
  | [] =>
    match res with
    | Some r =>
      if extra then UsageError else Parsed {| resource := r; timeout := ms |}
    | None => UsageError
    end
  | a :: rest =>
    if str_eqb a (lit "-h") || str_eqb a (lit "--help") then HelpExit
    else if str_eqb a (lit "--timeout") then
      match rest with
      | v :: rest' =>
        match int v with
        | Some z => scan rest' res z extra
        | None => UsageError
        end
      | [] => UsageError
      end
    else if startswith (lit "--timeout=") a then
      match int (skipn 10 a) with
      | Some z => scan rest res z extra
      | None => UsageError
      end
    else if startswith (lit "-") a && negb (str_eqb a (lit "-"))
            && match int a with Some _ => false | None => true end then
      scan rest res ms true
    else
      match res with
      | None => scan rest (Some a) ms extra
      | Some _ => scan rest res ms true
      end
  end.

#[export] Instance argparse : Argparse := {
  parse_args argv := scan argv None 5000 false
}.

(** Text on standard input, one terminated line per element. *)
Definition lines (text : list string) : list str :=
  map (fun s => lit s ++ [10%N]) text.

Definition demo_argv : list str := [address].

Definition demo_args : Namespace :=
  {| resource := address; timeout := 5000 |}.

Definition demo_input : list str :=
  lines ["*IDN?"; "# ready?"; ""; "  OUTP ON"; "MEAS?"; "// done"]%string.

End Bench.

(** ** What the loop leaves in the log *)

(** The events of one iteration of [for line in lines], by the way the
    iteration goes. *)
Inductive iteration (line : str) : list event -> Prop :=
| iter_skip :
    skipped (strip line) = true ->
    iteration line []
| iter_query_ok response :
    skipped (strip line) = false ->
    contains (ch "?") (strip line) = true ->
    iteration line
      [Call (CQuery (strip line)) (Responds response);
       Stdout (strip response); Flush]
| iter_query_failed msg :
    skipped (strip line) = false ->
    contains (ch "?") (strip line) = true ->
    iteration line
      [Call (CQuery (strip line)) (Raises msg);
       Stderr (lit "Error querying '" ++ strip line ++ lit "': " ++ msg);
       Flush]
| iter_write_ok :
    skipped (strip line) = false ->
    contains (ch "?") (strip line) = false ->
    iteration line [Call (CWrite (strip line)) Returns; Flush]
| iter_write_failed msg :
    skipped (strip line) = false ->
    contains (ch "?") (strip line) = false ->
    iteration line
      [Call (CWrite (strip line)) (Raises msg);
       Stderr (lit "Error writing '" ++ strip line ++ lit "': " ++ msg);
       Flush].

Inductive iterations : list str -> list event -> Prop :=
| iters_nil : iterations [] []
| iters_cons line d rest ds :
    iteration line d ->
    iterations rest ds ->
    iterations (line :: rest) (d ++ ds).

(** The three calls that establish the connection. *)
Definition prologue (args : Namespace) : list event :=
  [Call CResourceManager Returns;
   Call (COpen (resource args)) Returns;
   Call (CSetTimeout (timeout args)) Returns].

(** The end of the [try] block: [inst.close()], and the handler when it
    raises.  The first index is how [main] ends. *)
Inductive epilogue : res unit -> list event -> Prop :=
| epilogue_closed :
    epilogue (Ret tt) [Call CClose Returns]
| epilogue_failed msg :
    epilogue (Raise (SystemExit 1))
      [Call CClose (Raises msg); Stderr (lit "Error: " ++ msg)].

(** The calls made when the connection cannot be established. *)
Inductive refusal (args : Namespace) (msg : str) : list event -> Prop :=
| refusal_manager :
    refusal args msg [Call CResourceManager (Raises msg)]
| refusal_open :
    refusal args msg
      [Call CResourceManager Returns;
       Call (COpen (resource args)) (Raises msg)]
| refusal_timeout :
    refusal args msg
      [Call CResourceManager Returns;
       Call (COpen (resource args)) Returns;
       Call (CSetTimeout (timeout args)) (Raises msg)].

(** The ways a run of the script can go. *)
Section Shapes.

Context {V : Type} {visa_lib : Visa V} {argparse_lib : Argparse}.

Inductive shape (argv : list str) (v0 : V) (input : list str) :
    res unit * world V -> Prop :=
| shape_no_pyvisa :
    pyvisa_installed = false ->
    shape argv v0 input
      (Raise (SystemExit 1),
       World v0 input
         [Stderr (lit "Error: 'pyvisa' module not found. Please install it using 'pip install pyvisa' or 'pip install pyvisa-py'.")])
| shape_help :
    pyvisa_installed = true ->
    parse_args argv = HelpExit ->
    shape argv v0 input (Raise (SystemExit 0), World v0 input [PrintHelp])
| shape_usage :
    pyvisa_installed = true ->
    parse_args argv = UsageError ->
    shape argv v0 input (Raise (SystemExit 2), World v0 input [PrintUsage])
| shape_refused args msg v' p :
    pyvisa_installed = true ->
    parse_args argv = Parsed args ->
    connection args v0 = Err msg ->
    refusal args msg p ->
    shape argv v0 input
      (Raise (SystemExit 1),
       World v' input (p ++ [Stderr (lit "Error: " ++ msg)]))
| shape_connected args v1 r v' d c :
    pyvisa_installed = true ->
    parse_args argv = Parsed args ->
    connection args v0 = Ok v1 ->
    iterations input d ->
    epilogue r c ->
    shape argv v0 input (r, World v' [] (prologue args ++ d ++ c)).

End Shapes.

(** ** Further observations *)

(** Every call into the collaborator, and what came back, in order. *)
Definition calls_of (l : list event) : list call :=
  flat_map (fun e => match e with Call c _ => [c] | _ => [] end) l.

Definition replies_of (l : list event) : list reply :=
  flat_map (fun e => match e with Call _ r => [r] | _ => [] end) l.

(** The calls of a run that goes all the way. *)
Definition protocol (args : Namespace) (input : list str) : list call :=
  [CResourceManager; COpen (resource args); CSetTimeout (timeout args)]
  ++ map dispatch (filter survives input) ++ [CClose].

(** The text of the guard around [import pyvisa]. *)
Definition import_hint : str :=
  lit "Error: 'pyvisa' module not found. Please install it using 'pip install pyvisa' or 'pip install pyvisa-py'.".

(** The line each handler of the script prints for a call that raised:
    the two handlers inside the loop, and the one of the [try] block for
    the calls outside the loop. *)
Definition diagnostics (l : list event) : list str :=
  flat_map (fun e =>
    match e with
    | Call (CQuery command) (Raises msg) =>
      [lit "Error querying '" ++ command ++ lit "': " ++ msg]
    | Call (CWrite command) (Raises msg) =>
      [lit "Error writing '" ++ command ++ lit "': " ++ msg]
    | Call _ (Raises msg) => [lit "Error: " ++ msg]
    | _ => []
    end) l.

(** Commands, lines on standard output and flushes, in the order they
    happen. *)
Inductive beat : Type := Sent | Shown | Flushed.

Definition rhythm (l : list event) : list beat :=
  flat_map (fun e =>
    match e with
    | Call (CQuery _) _ | Call (CWrite _) _ => [Sent]
    | Stdout _ => [Shown]
    | Flush => [Flushed]
    | _ => []
    end) l.

(** The same, as the outcome of each command lets expect: a line is shown
    for a query that got its response, and the flush ends the iteration. *)
Definition cadence (l : list event) : list beat :=
  flat_map (fun e =>
    match e with
    | Call (CQuery _) (Responds _) => [Sent; Shown; Flushed]
    | Call (CQuery _) _ | Call (CWrite _) _ => [Sent; Flushed]
    | _ => []
    end) l.

Section Replay.

Context {V : Type} {visa_lib : Visa V}.

(** One call made directly on the collaborator. *)
Definition perform (c : call) (v : V) : reply * V :=
  match c with
  | CResourceManager =>
    let (r, v') := ResourceManager v in (reply_of (fun _ => Returns) r, v')
  | COpen resource =>
    let (r, v') := open_resource resource v in
    (reply_of (fun _ => Returns) r, v')
  | CSetTimeout ms =>
    let (r, v') := set_timeout ms v in (reply_of (fun _ => Returns) r, v')
  | CQuery command =>
    let (r, v') := query command v in (reply_of Responds r, v')
  | CWrite command =>
    let (r, v') := write command v in (reply_of (fun _ => Returns) r, v')
  | CClose =>
    let (r, v') := close v in (reply_of (fun _ => Returns) r, v')
  end.

(** A sequence of calls made one after the other. *)
Fixpoint replay (cs : list call) (v : V) : list reply * V :=
  match cs with
  | [] => ([], v)
  | c :: cs' =>
    let (r, v1) := perform c v in
    let (rs, v2) := replay cs' v1 in
    (r :: rs, v2)
  end.

(** The log of a world tells what happened to its collaborator since it
    was in state [v0]. *)
Definition faithful (v0 : V) (w : world V) : Prop :=
  replay (calls_of (log w)) v0 = (replies_of (log w), visa w).

(** A computation that keeps the log faithful. *)
Definition keeps {A} (m : M V A) : Prop :=
  forall v0 w, faithful v0 w -> faithful v0 (snd (m w)).

End Replay.

(** A collaborator like the bench, on a machine without pyvisa. *)
Module Bare.

#[export] Instance bare : Visa Bench.state := {
  pyvisa_installed := false;
  ResourceManager := @ResourceManager _ Bench.bench;
  open_resource := @open_resource _ Bench.bench;
  set_timeout := @set_timeout _ Bench.bench;
  query := @query _ Bench.bench;
  write := @write _ Bench.bench;
  close := @close _ Bench.bench
}.

End Bare.

(** * Properties *)

(** ** Strings *)

Lemma contains_lstrip c s :
  isspace c = false -> contains c (lstrip s) = contains c s.
Proof.
  intros Hc. induction s as [|a s IH]; simpl; [reflexivity|].
  destruct (isspace a) eqn:Ha; [|reflexivity].
  rewrite IH. destruct (N.eqb_spec c a) as [->|]; [congruence|reflexivity].
Qed.

Lemma contains_app c s t :
  contains c (s ++ t) = contains c s || contains c t.
Proof. apply existsb_app. Qed.

Lemma contains_rev c s : contains c (rev s) = contains c s.
Proof.
  induction s as [|a s IH]; simpl; [reflexivity|].
  rewrite contains_app, IH. simpl. rewrite orb_false_r. apply orb_comm.
Qed.

Lemma contains_strip c s :
  isspace c = false -> contains c (strip s) = contains c s.
Proof.
  intros Hc. unfold strip, rstrip.
  now rewrite contains_rev, contains_lstrip, contains_rev, contains_lstrip.
Qed.

Lemma question_mark_strip s :
  contains (ch "?") (strip s) = contains (ch "?") s.
Proof. now apply contains_strip. Qed.

Lemma lstrip_snoc s c :
  isspace c = false -> lstrip (s ++ [c]) = lstrip s ++ [c].
Proof.
  intros Hc. induction s as [|a s IH]; simpl.
  - now rewrite Hc.
  - destruct (isspace a); [exact IH|reflexivity].
Qed.

Lemma lstrip_spaces_snoc s c :
  isspace c = true -> lstrip s = [] -> lstrip (s ++ [c]) = [].
Proof.
  intros Hc. induction s as [|a s IH]; simpl.
  - now rewrite Hc.
  - destruct (isspace a); [exact IH|discriminate].
Qed.

Lemma lstrip_app_nonempty s t :
  lstrip s <> [] -> lstrip (s ++ t) = lstrip s ++ t.
Proof.
  induction s as [|a s IH]; simpl; [congruence|].
  destruct (isspace a); [exact IH|reflexivity].
Qed.

Lemma rstrip_cons c s :
  isspace c = false -> rstrip (c :: s) = c :: rstrip s.
Proof.
  intros Hc. unfold rstrip. simpl.
  now rewrite lstrip_snoc, rev_app_distr.
Qed.

Lemma rstrip_snoc_space s c :
  isspace c = true -> rstrip (s ++ [c]) = rstrip s.
Proof.
  intros Hc. unfold rstrip. rewrite rev_app_distr. simpl. now rewrite Hc.
Qed.

Lemma lstrip_head s :
  match lstrip s with
  | [] => True
  | c :: _ => isspace c = false
  end.
Proof.
  induction s as [|a s IH]; simpl; [exact I|].
  destruct (isspace a) eqn:Ha; [exact IH|exact Ha].
Qed.

Lemma lstrip_fixed s :
  match s with [] => True | c :: _ => isspace c = false end ->
  lstrip s = s.
Proof. destruct s as [|c s]; simpl; [reflexivity|]. now intros ->. Qed.

Lemma lstrip_idempotent s : lstrip (lstrip s) = lstrip s.
Proof. apply lstrip_fixed, lstrip_head. Qed.

Lemma rstrip_idempotent s : rstrip (rstrip s) = rstrip s.
Proof. unfold rstrip. now rewrite rev_involutive, lstrip_idempotent. Qed.

(** The first character of a trimmed string is not white space. *)
Lemma strip_head s :
  match strip s with
  | [] => True
  | c :: _ => isspace c = false
  end.
Proof.
  unfold strip. pose proof (lstrip_head s) as Hh.
  destruct (lstrip s) as [|c t]; [exact I|].
  now rewrite rstrip_cons.
Qed.

(** Neither is the last one. *)
Lemma strip_last s :
  match rev (strip s) with
  | [] => True
  | c :: _ => isspace c = false
  end.
Proof.
  unfold strip, rstrip. rewrite rev_involutive. apply lstrip_head.
Qed.

Lemma strip_idempotent s : strip (strip s) = strip s.
Proof.
  unfold strip at 1. rewrite (lstrip_fixed _ (strip_head s)).
  unfold strip. apply rstrip_idempotent.
Qed.

(** The line terminator that [readlines] leaves on a line goes with the
    trailing white space. *)
Lemma strip_newline s : strip (s ++ [10%N]) = strip s.
Proof.
  unfold strip. destruct (lstrip s) as [|c t] eqn:E.
  - now rewrite lstrip_spaces_snoc.
  - rewrite lstrip_app_nonempty by (rewrite E; discriminate).
    rewrite E. now apply rstrip_snoc_space.
Qed.

(** ** Runs of the script *)

Section Runs.

Context {V : Type} {visa_lib : Visa V} {argparse_lib : Argparse}.

Lemma process_line_run line (w : world V) :
  exists v' d,
    process_line line w = (Ret tt, World v' (stdin w) (log w ++ d))
    /\ iteration line d.
Proof.
  unfold process_line.
  destruct (skipped (strip line)) eqn:Hskip.
  - exists (visa w), []. rewrite app_nil_r. destruct w. split.
    + reflexivity.
    + now apply iter_skip.
  - destruct (contains (ch "?") (strip line)) eqn:Hq;
      unfold bind, try_except, inst_query, inst_write, invoke,
        print, print_err, sys_stdout_flush, emit.
    + destruct (query (strip line) (visa w)) as [[response|msg] v'] eqn:E;
        cbn [reply_of visa stdin log]; exists v'; eexists;
        (split; [rewrite <- !app_assoc; reflexivity|]).
      * now apply iter_query_ok.
      * now apply iter_query_failed.
    + destruct (write (strip line) (visa w)) as [[[]|msg] v'] eqn:E;
        cbn [reply_of visa stdin log]; exists v'; eexists;
        (split; [rewrite <- !app_assoc; reflexivity|]).
      * now apply iter_write_ok.
      * now apply iter_write_failed.
Qed.

(** The loop runs to the end of the list, whatever the collaborator does. *)
Lemma for_each_run lines (w : world V) :
  exists v' d,
    for_each lines process_line w = (Ret tt, World v' (stdin w) (log w ++ d))
    /\ iterations lines d.
Proof.
  revert w. induction lines as [|line rest IH]; intros w.
  - exists (visa w), []. rewrite app_nil_r. destruct w. split.
    + reflexivity.
    + constructor.
  - destruct (process_line_run line w) as (v1 & d & E1 & I1).
    destruct (IH (World v1 (stdin w) (log w ++ d))) as (v2 & ds & E2 & I2).
    exists v2, (d ++ ds). split.
    + cbn [for_each]. unfold bind at 1. rewrite E1, E2.
      cbn [stdin log]. now rewrite app_assoc.
    + now constructor.
Qed.

(** When the connection is established the [try] block goes on with the
    loop, on the lines read from standard input. *)
Lemma main_body_loop args v0 v1 input l0 :
  connection args v0 = Ok v1 ->
  main_body args (World v0 input l0)
  = try_except
      (for_each input process_line ;; inst_close)
      (fun e => print_err (lit "Error: " ++ e) ;; sys_exit 1)
      (World v1 [] (l0 ++ prologue args)).
Proof.
  unfold connection, main_body. intros Hc.
  unfold try_except, bind at 1, pyvisa_ResourceManager, invoke at 1.
  cbn [visa stdin log].
  destruct (ResourceManager v0) as [[[]|m] va]; [|discriminate].
  unfold bind at 1, rm_open_resource, invoke at 1. cbn [visa stdin log].
  destruct (open_resource (resource args) va) as [[[]|m] vb]; [|discriminate].
  unfold bind at 1, inst_set_timeout, invoke at 1. cbn [visa stdin log].
  destruct (set_timeout (timeout args) vb) as [[[]|m] vc]; [|discriminate].
  injection Hc as ->.
  unfold bind at 1, readlines. cbn [visa stdin log reply_of].
  unfold prologue. now rewrite <- !app_assoc.
Qed.

Lemma main_body_connected args v0 v1 input l0 :
  connection args v0 = Ok v1 ->
  exists r v' d c,
    iterations input d /\ epilogue r c /\
    main_body args (World v0 input l0)
    = (r, World v' [] (l0 ++ prologue args ++ d ++ c)).
Proof.
  intros Hc. rewrite (main_body_loop args v0 input l0 Hc).
  unfold try_except, bind.
  match goal with
  | |- context [for_each input process_line ?w] =>
    destruct (for_each_run input w) as (v2 & d & E & I)
  end.
  rewrite E. cbn [stdin log].
  unfold inst_close, invoke. cbn [visa stdin log].
  destruct (close v2) as [[[]|m] v3]; cbn [reply_of].
  - exists (Ret tt), v3, d, [Call CClose Returns].
    repeat split; [exact I|constructor|].
    now rewrite <- !app_assoc.
  - exists (Raise (SystemExit 1)), v3, d,
      [Call CClose (Raises m); Stderr (lit "Error: " ++ m)].
    repeat split; [exact I|constructor|].
    unfold print_err, emit, sys_exit. cbn [visa stdin log].
    now rewrite <- !app_assoc.
Qed.

(** When it is not, the handler of the [try] block ends the process. *)
Lemma main_body_refused args v0 msg input l0 :
  connection args v0 = Err msg ->
  exists v' p,
    refusal args msg p /\
    main_body args (World v0 input l0)
    = (Raise (SystemExit 1),
       World v' input (l0 ++ p ++ [Stderr (lit "Error: " ++ msg)])).
Proof.
  unfold connection, main_body. intros Hc.
  unfold try_except, bind at 1, pyvisa_ResourceManager, invoke at 1.
  cbn [visa stdin log].
  destruct (ResourceManager v0) as [[[]|m] va].
  2:{ injection Hc as ->. eexists _, _. split; [apply refusal_manager|].
      unfold bind, print_err, emit, sys_exit. cbn [visa stdin log reply_of].
      now rewrite <- !app_assoc. }
  unfold bind at 1, rm_open_resource, invoke at 1. cbn [visa stdin log].
  destruct (open_resource (resource args) va) as [[[]|m] vb].
  2:{ injection Hc as ->. eexists _, _. split; [apply refusal_open|].
      unfold bind, print_err, emit, sys_exit. cbn [visa stdin log reply_of].
      now rewrite <- !app_assoc. }
  unfold bind at 1, inst_set_timeout, invoke at 1. cbn [visa stdin log].
  destruct (set_timeout (timeout args) vb) as [[[]|m] vc]; [discriminate|].
  injection Hc as ->. eexists _, _. split; [apply refusal_timeout|].
  unfold bind, print_err, emit, sys_exit. cbn [visa stdin log reply_of].
  now rewrite <- !app_assoc.
Qed.

(** With pyvisa importable and a command line that parses, a run of the
    script is a run of the [try] block of [main]. *)
Lemma run_parsed argv args (v0 : V) input :
  pyvisa_installed = true ->
  parse_args argv = Parsed args ->
  run argv v0 input = main_body args (World v0 input []).
Proof.
  intros Hi Hp. unfold run, script, main, parser_parse_args.
  rewrite Hi, Hp. reflexivity.
Qed.

Lemma run_connected argv args (v0 v1 : V) input :
  pyvisa_installed = true ->
  parse_args argv = Parsed args ->
  connection args v0 = Ok v1 ->
  exists r v' d c,
    iterations input d /\ epilogue r c /\
    run argv v0 input = (r, World v' [] (prologue args ++ d ++ c)).
Proof.
  intros Hi Hp Hc. rewrite (run_parsed argv v0 input Hi Hp).
  exact (main_body_connected args v0 input [] Hc).
Qed.

Lemma run_refused argv args (v0 : V) msg input :
  pyvisa_installed = true ->
  parse_args argv = Parsed args ->
  connection args v0 = Err msg ->
  exists v' p,
    refusal args msg p /\
    run argv v0 input
    = (Raise (SystemExit 1),
       World v' input (p ++ [Stderr (lit "Error: " ++ msg)])).
Proof.
  intros Hi Hp Hc. rewrite (run_parsed argv v0 input Hi Hp).
  exact (main_body_refused args v0 input [] Hc).
Qed.

(** A line that meets the [continue] leaves the world as it was. *)
Lemma process_line_skipped line (w : world V) :
  skipped (strip line) = true -> process_line line w = (Ret tt, w).
Proof. unfold process_line. now intros ->. Qed.

Lemma for_each_without before line after (w : world V) :
  skipped (strip line) = true ->
  for_each (before ++ line :: after) process_line w
  = for_each (before ++ after) process_line w.
Proof.
  intros Hs. revert w. induction before as [|a before IH]; intros w.
  - cbn [app for_each]. unfold bind at 1.
    now rewrite process_line_skipped.
  - cbn [app for_each]. unfold bind.
    destruct (process_line a w) as [[[]|e] w']; [apply IH|reflexivity].
Qed.

(** Every run has one of the five shapes. *)
Lemma run_shape argv (v0 : V) input : shape argv v0 input (run argv v0 input).
Proof.
  destruct pyvisa_installed eqn:Hi.
  - destruct (parse_args argv) as [args| |] eqn:Hp.
    + rewrite (run_parsed argv v0 input Hi Hp).
      destruct (connection args v0) as [v1|msg] eqn:Hc.
      * destruct (main_body_connected args v0 input [] Hc)
          as (r & v' & d & c & Hd & He & ->).
        cbn [app]. now apply shape_connected with (args := args) (v1 := v1).
      * destruct (main_body_refused args v0 input [] Hc) as (v' & p & Hr & ->).
        cbn [app]. now apply shape_refused with (args := args).
    + unfold run, script, main, parser_parse_args. rewrite Hi, Hp.
      now apply shape_help.
    + unfold run, script, main, parser_parse_args. rewrite Hi, Hp.
      now apply shape_usage.
  - unfold run, script. rewrite Hi. now apply shape_no_pyvisa.
Qed.

End Runs.

(** ** Observations on the events of the loop *)

Lemma stdout_of_app a b : stdout_of (a ++ b) = stdout_of a ++ stdout_of b.
Proof. apply flat_map_app. Qed.

Lemma stderr_of_app a b : stderr_of (a ++ b) = stderr_of a ++ stderr_of b.
Proof. apply flat_map_app. Qed.

Lemma dispatches_app a b : dispatches (a ++ b) = dispatches a ++ dispatches b.
Proof. apply flat_map_app. Qed.

Lemma query_results_app a b :
  query_results (a ++ b) = query_results a ++ query_results b.
Proof. apply flat_map_app. Qed.

Lemma failures_app a b : failures (a ++ b) = failures a ++ failures b.
Proof. apply flat_map_app. Qed.

Lemma close_calls_app a b :
  close_calls (a ++ b) = close_calls a ++ close_calls b.
Proof. apply flat_map_app. Qed.

Lemma fatal_lines_app a b :
  fatal_lines (a ++ b) = fatal_lines a ++ fatal_lines b.
Proof. apply flat_map_app. Qed.

Create Rewrite HintDb observe.
#[export] Hint Rewrite stdout_of_app stderr_of_app dispatches_app
  query_results_app failures_app close_calls_app fatal_lines_app
  flat_map_app map_app : observe.

Lemma iteration_dispatches line d :
  iteration line d ->
  dispatches d = if survives line then [dispatch line] else [].
Proof.
  unfold survives, dispatch.
  intros [Hs|s Hs Hq|m Hs Hq|Hs Hq|m Hs Hq]; rewrite Hs;
    try rewrite question_mark_strip in Hq; try rewrite Hq; reflexivity.
Qed.

Lemma iterations_dispatches lines d :
  iterations lines d ->
  dispatches d = map dispatch (filter survives lines).
Proof.
  induction 1 as [|line d rest ds Hd _ IH]; [reflexivity|].
  rewrite dispatches_app, (iteration_dispatches Hd), IH. cbn [filter].
  now destruct (survives line).
Qed.

Lemma iteration_queries line d :
  iteration line d ->
  map fst (query_results d)
  = if survives line && contains (ch "?") line then [strip line] else [].
Proof.
  unfold survives.
  intros [Hs|s Hs Hq|m Hs Hq|Hs Hq|m Hs Hq]; rewrite Hs;
    try rewrite question_mark_strip in Hq; try rewrite Hq; reflexivity.
Qed.

Lemma iterations_queries lines d :
  iterations lines d ->
  map fst (query_results d)
  = map strip
      (filter (fun line => survives line && contains (ch "?") line) lines).
Proof.
  induction 1 as [|line d rest ds Hd _ IH]; [reflexivity|].
  rewrite query_results_app, map_app, (iteration_queries Hd), IH.
  cbn [filter].
  now destruct (survives line && contains (ch "?") line).
Qed.

Lemma iterations_stdout lines d :
  iterations lines d ->
  stdout_of d = flat_map printed (query_results d).
Proof.
  induction 1 as [|line d rest ds Hd _ IH]; [reflexivity|].
  rewrite stdout_of_app, query_results_app, flat_map_app, IH. f_equal.
  now destruct Hd.
Qed.

Lemma occurs_in_middle before needle after :
  occurs_in needle (before ++ needle ++ after).
Proof. now exists before, after. Qed.

Lemma occurs_in_end before needle : occurs_in needle (before ++ needle).
Proof. exists before, []. now rewrite app_nil_r. Qed.

Lemma iterations_stderr lines d :
  iterations lines d ->
  Forall2 reports (stderr_of d) (failures d).
Proof.
  induction 1 as [|line d rest ds Hd _ IH]; [constructor|].
  rewrite stderr_of_app, failures_app. apply Forall2_app; [|exact IH].
  destruct Hd; cbn [stderr_of failures flat_map app];
    repeat constructor; cbn [fst snd].
  - apply occurs_in_middle.
  - rewrite !app_assoc. apply occurs_in_end.
  - apply occurs_in_middle.
  - rewrite !app_assoc. apply occurs_in_end.
Qed.

Lemma iterations_close_calls lines d :
  iterations lines d -> close_calls d = [].
Proof.
  induction 1 as [|line d rest ds Hd _ IH]; [reflexivity|].
  rewrite close_calls_app, IH, app_nil_r. now destruct Hd.
Qed.

Lemma iterations_fatal_lines lines d :
  iterations lines d -> fatal_lines d = [].
Proof.
  induction 1 as [|line d rest ds Hd _ IH]; [reflexivity|].
  rewrite fatal_lines_app, IH, app_nil_r. now destruct Hd.
Qed.

(** The end of the [try] block adds no query, no write and no output line. *)
Lemma epilogue_quiet r c :
  epilogue r c ->
  dispatches c = [] /\ query_results c = [] /\ stdout_of c = []
  /\ failures c = [] /\ stderr_of c = fatal_lines c.
Proof. now destruct 1. Qed.

Lemma refusal_quiet args msg p :
  refusal args msg p ->
  dispatches p = [] /\ stdout_of p = [] /\ stderr_of p = []
  /\ close_calls p = [].
Proof. now destruct 1. Qed.

(** What the log of a connected run shows, from what its loop shows. *)
Lemma connected_observations args r d c :
  epilogue r c ->
  let l := prologue args ++ d ++ c in
  dispatches l = dispatches d
  /\ query_results l = query_results d
  /\ stdout_of l = stdout_of d
  /\ failures l = failures d
  /\ stderr_of l = stderr_of d ++ fatal_lines c
  /\ close_calls l = close_calls d ++ close_calls c.
Proof.
  intros He l. subst l.
  destruct (epilogue_quiet He) as (E1 & E2 & E3 & E4 & E5).
  autorewrite with observe.
  rewrite E1, E2, E3, E4, E5, !app_nil_r. now repeat split.
Qed.

Lemma in_dispatches_query command r l :
  In (Call (CQuery command) r) l -> In (CQuery command) (dispatches l).
Proof.
  intros Hin. unfold dispatches. apply in_flat_map.
  exists (Call (CQuery command) r). split; [exact Hin|now left].
Qed.

Lemma in_dispatches_write command r l :
  In (Call (CWrite command) r) l -> In (CWrite command) (dispatches l).
Proof.
  intros Hin. unfold dispatches. apply in_flat_map.
  exists (Call (CWrite command) r). split; [exact Hin|now left].
Qed.

Lemma skipped_of_marker line :
  strip line = []
  \/ startswith (lit "#") (strip line) = true
  \/ startswith (lit "//") (strip line) = true ->
  skipped (strip line) = true.
Proof.
  unfold skipped. intros [->|[->| ->]].
  - reflexivity.
  - now rewrite orb_true_r.
  - now rewrite orb_true_r.
Qed.

(** In every run, what is sent comes from a surviving input line. *)
Lemma run_dispatches {V} {visa_lib : Visa V} {argparse_lib : Argparse}
    argv (v0 : V) input c :
  In c (dispatches (log (snd (run argv v0 input)))) ->
  In c (map dispatch (filter survives input)).
Proof.
  destruct (run_shape argv v0 input)
    as [Hi|Hi Hp|Hi Hp|args msg v' p Hi Hp Hc Hr|args v1 r v' d c' Hi Hp Hc Hd He];
    cbn [snd log]; try (now intros []).
  - rewrite dispatches_app. destruct (refusal_quiet Hr) as (-> & _).
    now intros [].
  - destruct (connected_observations args d He) as (-> & _).
    now rewrite (iterations_dispatches Hd).
Qed.

(** A refused connection ends the same way whatever waits on standard
    input. *)
Lemma main_body_refused_input {V} {visa_lib : Visa V}
    args (v0 : V) msg input input' l0 :
  connection args v0 = Err msg ->
  fst (main_body args (World v0 input l0))
  = fst (main_body args (World v0 input' l0))
  /\ log (snd (main_body args (World v0 input l0)))
     = log (snd (main_body args (World v0 input' l0)))
  /\ visa (snd (main_body args (World v0 input l0)))
     = visa (snd (main_body args (World v0 input' l0))).
Proof.
  unfold connection, main_body, try_except, bind,
    pyvisa_ResourceManager, rm_open_resource, inst_set_timeout, invoke,
    print_err, emit, sys_exit.
  cbn [visa stdin log].
  destruct (ResourceManager v0) as [[[]|m] va];
    [cbn [visa stdin log]|intros _; now repeat split].
  destruct (open_resource (resource args) va) as [[[]|m] vb];
    [cbn [visa stdin log]|intros _; now repeat split].
  destruct (set_timeout (timeout args) vb) as [[[]|m] vc];
    [discriminate|intros _; now repeat split].
Qed.

(** ** The claims *)

Section Claims.

Context {V : Type} {visa_lib : Visa V} {argparse_lib : Argparse}.


(** C2.  In a run that reaches the loop, the diagnostics on standard error
    are in one-to-one, ordered correspondence with the query and write
    calls that raised, each diagnostic containing the text of the command
    that failed and the message of the error; the only other line that can
    follow them is the one for a failing [close].  Whatever fails, the
    query and write calls are those of all surviving input lines: no
    failure stops the loop. *)
Theorem failure_reported_and_run_continues argv args (v0 v1 : V) input :
  pyvisa_installed = true ->
  parse_args argv = Parsed args ->
  connection args v0 = Ok v1 ->
  (exists diagnostics,
      stderr_of (log (snd (run argv v0 input)))
      = diagnostics ++ fatal_lines (log (snd (run argv v0 input)))
      /\ Forall2 reports diagnostics
           (failures (log (snd (run argv v0 input)))))
  /\ dispatches (log (snd (run argv v0 input)))
     = map dispatch (filter survives input).
Proof.
  intros Hi Hp Hc.
  destruct (run_connected argv v0 input Hi Hp Hc)
    as (r & v' & d & c & Hd & He & ->).
  cbn [snd log].
  destruct (connected_observations args d He) as (E1 & _ & _ & E4 & E5 & _).
  rewrite E1, E4, E5. split.
  - exists (stderr_of d). split.
    + autorewrite with observe.
      now rewrite (iterations_fatal_lines Hd).
    + exact (iterations_stderr Hd).
  - exact (iterations_dispatches Hd).
Qed.

(** C3.  When the resource manager, the opening of the resource or the
    setting of the timeout raises, the run prints exactly one line on
    standard error, exits with status 1, makes no query or write call,
    prints nothing on standard output and leaves standard input unread. *)
Theorem connection_failure_is_fatal argv args (v0 : V) msg input :
  pyvisa_installed = true ->
  parse_args argv = Parsed args ->
  connection args v0 = Err msg ->
  stderr_of (log (snd (run argv v0 input))) = [lit "Error: " ++ msg]
  /\ exit_status (fst (run argv v0 input)) = 1%Z
  /\ exit_status (fst (run argv v0 input)) <> 0%Z
  /\ dispatches (log (snd (run argv v0 input))) = []
  /\ stdout_of (log (snd (run argv v0 input))) = []
  /\ stdin (snd (run argv v0 input)) = input.
Proof.
  intros Hi Hp Hc.
  destruct (run_refused argv v0 input Hi Hp Hc) as (v' & p & Hr & ->).
  cbn [fst snd log stdin exit_status].
  destruct (refusal_quiet Hr) as (E1 & E2 & E3 & _).
  autorewrite with observe. rewrite E1, E2, E3.
  repeat split; discriminate.
Qed.


(** C6.  A line that is empty after trimming, or whose trimmed text begins
    with [#] or [//], does nothing: its iteration returns with the world
    unchanged (no call, no output line, no flush), and a run of the script
    on an input with that line ends with the same status, the same log and
    the same collaborator state as the run on the input without it. *)
Theorem skipped_line_is_inert line :
  strip line = []
  \/ startswith (lit "#") (strip line) = true
  \/ startswith (lit "//") (strip line) = true ->
  (forall w : world V, process_line line w = (Ret tt, w))
  /\ (forall argv (v0 : V) before after,
        fst (run argv v0 (before ++ line :: after))
        = fst (run argv v0 (before ++ after))
        /\ log (snd (run argv v0 (before ++ line :: after)))
           = log (snd (run argv v0 (before ++ after)))
        /\ visa (snd (run argv v0 (before ++ line :: after)))
           = visa (snd (run argv v0 (before ++ after)))).
Proof.
  intros Hm. pose proof (skipped_of_marker line Hm) as Hs. split.
  - intros w. now apply process_line_skipped.
  - intros argv v0 before after.
    destruct pyvisa_installed eqn:Hi.
    + destruct (parse_args argv) as [args| |] eqn:Hp.
      * rewrite !(run_parsed argv v0 _ Hi Hp).
        destruct (connection args v0) as [v1|msg] eqn:Hc.
        -- rewrite !(main_body_loop args v0 _ [] Hc).
           unfold try_except, bind.
           now rewrite !(for_each_without before line after _ Hs).
        -- exact (main_body_refused_input args v0 _ _ [] Hc).
      * unfold run, script, main, parser_parse_args. rewrite Hi, Hp.
        now repeat split.
      * unfold run, script, main, parser_parse_args. rewrite Hi, Hp.
        now repeat split.
    + unfold run, script. rewrite Hi. now repeat split.
Qed.

(** C7 (amended).  In a run that reaches the loop [inst.close()] is called
    exactly once, after the last line, and the exit status follows from
    that call alone: 0 when it returns, 1 when it raises.  Queries and
    writes that failed on the way have no part in it. *)
Theorem exit_status_follows_close argv args (v0 v1 : V) input :
  pyvisa_installed = true ->
  parse_args argv = Parsed args ->
  connection args v0 = Ok v1 ->
  dispatches (log (snd (run argv v0 input)))
  = map dispatch (filter survives input)
  /\ (close_calls (log (snd (run argv v0 input))) = [Returns]
      /\ exit_status (fst (run argv v0 input)) = 0%Z
      \/ exists msg,
           close_calls (log (snd (run argv v0 input))) = [Raises msg]
           /\ exit_status (fst (run argv v0 input)) = 1%Z).
Proof.
  intros Hi Hp Hc.
  destruct (run_connected argv v0 input Hi Hp Hc)
    as (r & v' & d & c & Hd & He & ->).
  cbn [fst snd log].
  destruct (connected_observations args d He) as (E1 & _ & _ & _ & _ & E6).
  rewrite E1, E6, (iterations_close_calls Hd). split.
  - exact (iterations_dispatches Hd).
  - destruct He as [|msg]; [left|right; exists msg]; now split.
Qed.


(** C9.  The comment test comes first.  For a line whose trimmed text
    begins with [#] or [//], with or without a question mark in it, the
    iteration returns with the world unchanged, and no run of the script,
    whatever its input, sends the text of that line as a query or as a
    write. *)
Theorem comment_hides_question_mark line :
  startswith (lit "#") (strip line) = true
  \/ startswith (lit "//") (strip line) = true ->
  (forall w : world V, process_line line w = (Ret tt, w))
  /\ (forall argv (v0 : V) input r,
        ~ In (Call (CQuery (strip line)) r) (log (snd (run argv v0 input)))
        /\ ~ In (Call (CWrite (strip line)) r)
               (log (snd (run argv v0 input)))).
Proof.
  intros Hm.
  assert (Hs : skipped (strip line) = true)
    by (apply skipped_of_marker; now right).
  split.
  - intros w. now apply process_line_skipped.
  - assert (Hno : forall argv (v0 : V) input c,
               command_of c = Some (strip line) ->
               ~ In c (dispatches (log (snd (run argv v0 input))))).
    { intros argv v0 input c Hcmd Hin.
      apply run_dispatches, in_map_iff in Hin.
      destruct Hin as (line' & <- & Hin).
      apply filter_In in Hin. destruct Hin as [_ Hsv].
      unfold survives in Hsv. unfold dispatch in Hcmd.
      destruct (contains (ch "?") line'); cbn [command_of] in Hcmd;
        injection Hcmd as Heq; rewrite Heq, Hs in Hsv; discriminate. }
    intros argv v0 input r. split; intros Hin.
    + apply in_dispatches_query in Hin. now apply Hno in Hin.
    + apply in_dispatches_write in Hin. now apply Hno in Hin.
Qed.

(** C10.  In a run that reaches the loop, the command strings handed to
    [inst.query] and [inst.write] are, in order, the trimmed texts of the
    surviving input lines.  Trimming drops the line terminator left by
    [readlines], and a trimmed text neither starts nor ends with white
    space. *)
Theorem command_is_trimmed_line argv args (v0 v1 : V) input :
  pyvisa_installed = true ->
  parse_args argv = Parsed args ->
  connection args v0 = Ok v1 ->
  map command_of (dispatches (log (snd (run argv v0 input))))
  = map (fun line => Some (strip line))
      (filter (fun line => negb (skipped (strip line))) input)
  /\ (forall text, strip (text ++ [10%N]) = strip text)
  /\ (forall line,
        strip (strip line) = strip line
        /\ match strip line with
        | [] => True
           | first :: _ => isspace first = false
           end
        /\ match rev (strip line) with
           | [] => True
           | last :: _ => isspace last = false
           end).
Proof.
  intros Hi Hp Hc.
  destruct (run_connected argv v0 input Hi Hp Hc)
    as (r & v' & d & c & Hd & He & ->).
  cbn [snd log].
  destruct (connected_observations args d He) as (E1 & _).
  rewrite E1, (iterations_dispatches Hd). split; [|split].
  - rewrite map_map. apply map_ext. intros line. unfold dispatch.
    now destruct (contains (ch "?") line).
  - exact strip_newline.
  - intros line.
    split; [apply strip_idempotent|split; [apply strip_head|apply strip_last]].
Qed.

End Claims.

(** When the connection is not established [inst.close()] is never
    called, also when the resource had been opened and it is the timeout
    that was rejected. *)
Lemma no_close_when_refused {V} {visa_lib : Visa V} {argparse_lib : Argparse}
    argv args (v0 : V) msg input :
  pyvisa_installed = true ->
  parse_args argv = Parsed args ->
  connection args v0 = Err msg ->
  close_calls (log (snd (run argv v0 input))) = [].
Proof.
  intros Hi Hp Hc.
  destruct (run_refused argv v0 input Hi Hp Hc) as (v' & p & Hr & ->).
  cbn [snd log]. rewrite close_calls_app.
  now destruct (refusal_quiet Hr) as (_ & _ & _ & ->).
Qed.

(** ** Runs on the test bench *)

Section OnTheBench.

Import Bench.

(** C4.  The bench opens the resource and rejects a timeout of
    5000000000 ms.  The run ends with status 1 and [inst.close()] is never
    called, although the connection was open: the handler of the [try]
    block does not release it. *)
Theorem close_skipped_when_timeout_rejected :
  log (snd (run [address; lit "--timeout"; lit "5000000000"] fresh
              (lines ["*IDN?"]%string)))
  = [Call CResourceManager Returns;
     Call (COpen address) Returns;
     Call (CSetTimeout 5000000000) (Raises (lit "timeout value is invalid"));
     Stderr (lit "Error: timeout value is invalid")]
  /\ close_calls
       (log (snd (run [address; lit "--timeout"; lit "5000000000"] fresh
                    (lines ["*IDN?"]%string)))) = []
  /\ exit_status
       (fst (run [address; lit "--timeout"; lit "5000000000"] fresh
               (lines ["*IDN?"]%string))) = 1%Z.
Proof. repeat split. Qed.

(** C7, as stated, fails: the connection is established, the one input
    line is read and written without error, and the exit status is 1,
    because [inst.close()] raised. *)
Lemma close_failure_exits_one :
  pyvisa_installed = true
  /\ parse_args demo_argv = Parsed demo_args
  /\ connection demo_args fresh = Ok fresh
  /\ dispatches (log (snd (run demo_argv fresh (lines ["SYST:LOCK"]%string))))
     = [CWrite (lit "SYST:LOCK")]
  /\ failures (log (snd (run demo_argv fresh (lines ["SYST:LOCK"]%string)))) = []
  /\ stdin (snd (run demo_argv fresh (lines ["SYST:LOCK"]%string))) = []
  /\ exit_status (fst (run demo_argv fresh (lines ["SYST:LOCK"]%string))) = 1%Z
  /\ exit_status (fst (run demo_argv fresh (lines ["SYST:LOCK"]%string))) <> 0%Z.
Proof. repeat split. discriminate. Qed.



Lemma failure_reported_and_run_continues_witness :
  pyvisa_installed = true
  /\ parse_args demo_argv = Parsed demo_args
  /\ connection demo_args fresh = Ok fresh
  /\ ((exists diagnostics,
         stderr_of (log (snd (run demo_argv fresh demo_input)))
         = diagnostics
           ++ fatal_lines (log (snd (run demo_argv fresh demo_input)))
         /\ Forall2 reports diagnostics
              (failures (log (snd (run demo_argv fresh demo_input)))))
      /\ dispatches (log (snd (run demo_argv fresh demo_input)))
         = map dispatch (filter survives demo_input)).
Proof.
  split; [reflexivity|]. split; [reflexivity|]. split; [reflexivity|].
  apply (@failure_reported_and_run_continues state bench argparse demo_argv demo_args fresh fresh
           demo_input); reflexivity.
Defined.

(** An address on which the bench has no instrument. *)
Lemma connection_failure_is_fatal_witness :
  pyvisa_installed = true
  /\ parse_args [lit "GPIB0::13::INSTR"]
     = Parsed {| resource := lit "GPIB0::13::INSTR"; timeout := 5000 |}
  /\ connection {| resource := lit "GPIB0::13::INSTR"; timeout := 5000 |}
       fresh
     = Err rsrc_nfound
  /\ (stderr_of
        (log (snd (run [lit "GPIB0::13::INSTR"] fresh demo_input)))
      = [lit "Error: " ++ rsrc_nfound]
      /\ exit_status (fst (run [lit "GPIB0::13::INSTR"] fresh demo_input))
         = 1%Z
      /\ exit_status (fst (run [lit "GPIB0::13::INSTR"] fresh demo_input))
         <> 0%Z
      /\ dispatches
           (log (snd (run [lit "GPIB0::13::INSTR"] fresh demo_input))) = []
      /\ stdout_of
           (log (snd (run [lit "GPIB0::13::INSTR"] fresh demo_input))) = []
      /\ stdin (snd (run [lit "GPIB0::13::INSTR"] fresh demo_input))
         = demo_input).
Proof.
  split; [reflexivity|]. split; [reflexivity|]. split; [reflexivity|].
  apply (@connection_failure_is_fatal state bench argparse [lit "GPIB0::13::INSTR"]
           {| resource := lit "GPIB0::13::INSTR"; timeout := 5000 |}
           fresh _ demo_input); reflexivity.
Defined.


(** An indented [//] comment between two commands. *)
Lemma skipped_line_is_inert_witness :
  (strip (lit "  // warm-up" ++ [10%N]) = []
   \/ startswith (lit "#") (strip (lit "  // warm-up" ++ [10%N])) = true
   \/ startswith (lit "//") (strip (lit "  // warm-up" ++ [10%N])) = true)
  /\ ((forall w : world state,
         process_line (lit "  // warm-up" ++ [10%N]) w = (Ret tt, w))
      /\ (forall argv (v0 : state) before after,
            fst (run argv v0
                   (before ++ (lit "  // warm-up" ++ [10%N]) :: after))
            = fst (run argv v0 (before ++ after))
            /\ log (snd (run argv v0
                           (before ++ (lit "  // warm-up" ++ [10%N]) :: after)))
               = log (snd (run argv v0 (before ++ after)))
            /\ visa (snd (run argv v0
                            (before ++ (lit "  // warm-up" ++ [10%N]) :: after)))
               = visa (snd (run argv v0 (before ++ after))))).
Proof.
  split; [right; right; reflexivity|].
  apply (@skipped_line_is_inert state bench argparse (lit "  // warm-up" ++ [10%N])).
  right; right; reflexivity.
Defined.

(** [MEAS?] times out on the bench and the run still exits with 0. *)
Lemma exit_status_follows_close_witness :
  pyvisa_installed = true
  /\ parse_args demo_argv = Parsed demo_args
  /\ connection demo_args fresh = Ok fresh
  /\ (dispatches (log (snd (run demo_argv fresh demo_input)))
      = map dispatch (filter survives demo_input)
      /\ (close_calls (log (snd (run demo_argv fresh demo_input))) = [Returns]
          /\ exit_status (fst (run demo_argv fresh demo_input)) = 0%Z
          \/ exists msg,
               close_calls (log (snd (run demo_argv fresh demo_input)))
               = [Raises msg]
               /\ exit_status (fst (run demo_argv fresh demo_input)) = 1%Z)).
Proof.
  split; [reflexivity|]. split; [reflexivity|]. split; [reflexivity|].
  apply (@exit_status_follows_close state bench argparse demo_argv demo_args fresh fresh
           demo_input); reflexivity.
Defined.

(** The line [# ready?]. *)
Lemma comment_hides_question_mark_witness :
  (startswith (lit "#") (strip (lit "# ready?" ++ [10%N])) = true
   \/ startswith (lit "//") (strip (lit "# ready?" ++ [10%N])) = true)
  /\ contains (ch "?") (lit "# ready?" ++ [10%N]) = true
  /\ ((forall w : world state,
         process_line (lit "# ready?" ++ [10%N]) w = (Ret tt, w))
      /\ (forall argv (v0 : state) input r,
            ~ In (Call (CQuery (strip (lit "# ready?" ++ [10%N]))) r)
                (log (snd (run argv v0 input)))
            /\ ~ In (Call (CWrite (strip (lit "# ready?" ++ [10%N]))) r)
                   (log (snd (run argv v0 input))))).
Proof.
  split; [left; reflexivity|]. split; [reflexivity|].
  apply (@comment_hides_question_mark state bench argparse (lit "# ready?" ++ [10%N])).
  left; reflexivity.
Defined.

Lemma command_is_trimmed_line_witness :
  pyvisa_installed = true
  /\ parse_args demo_argv = Parsed demo_args
  /\ connection demo_args fresh = Ok fresh
  /\ map command_of (dispatches (log (snd (run demo_argv fresh demo_input))))
     = map (fun line => Some (strip line))
         (filter (fun line => negb (skipped (strip line))) demo_input).
Proof.
  split; [reflexivity|]. split; [reflexivity|]. split; [reflexivity|].
  apply (@command_is_trimmed_line state bench argparse demo_argv demo_args fresh fresh
           demo_input); reflexivity.
Defined.

(** What the run on [demo_input] shows, evaluated. *)
Example demo_run :
  dispatches (log (snd (run demo_argv fresh demo_input)))
  = [CQuery (lit "*IDN?"); CWrite (lit "OUTP ON"); CQuery (lit "MEAS?")]
  /\ stdout_of (log (snd (run demo_argv fresh demo_input)))
     = [lit "ACME,Model1,SN1,v1"]
  /\ stderr_of (log (snd (run demo_argv fresh demo_input)))
     = [lit "Error querying 'MEAS?': " ++ tmo]
  /\ exit_status (fst (run demo_argv fresh demo_input)) = 0%Z.
Proof. repeat split. Qed.

(** The scenarios of the specification. *)
Example scenario_identification :
  stdout_of (log (snd (run demo_argv fresh (lines ["*IDN?"]%string))))
  = [lit "ACME,Model1,SN1,v1"]
  /\ exit_status (fst (run demo_argv fresh (lines ["*IDN?"]%string))) = 0%Z.
Proof. repeat split. Qed.

Example scenario_write_then_query :
  log (snd (run demo_argv fresh (lines ["OUTP ON"; "*IDN?"]%string)))
  = prologue demo_args
    ++ [Call (CWrite (lit "OUTP ON")) Returns; Flush;
        Call (CQuery (lit "*IDN?"))
          (Responds (lit "ACME,Model1,SN1,v1" ++ [10%N]));
        Stdout (lit "ACME,Model1,SN1,v1"); Flush;
        Call CClose Returns]
  /\ exit_status
       (fst (run demo_argv fresh (lines ["OUTP ON"; "*IDN?"]%string))) = 0%Z.
Proof. repeat split. Qed.

Example scenario_comment_and_blank :
  log (snd (run demo_argv fresh (lines ["# comment"; ""; "VOLT 5"]%string)))
  = prologue demo_args
    ++ [Call (CWrite (lit "VOLT 5")) Returns; Flush; Call CClose Returns]
  /\ exit_status
       (fst (run demo_argv fresh (lines ["# comment"; ""; "VOLT 5"]%string)))
     = 0%Z.
Proof. repeat split. Qed.

Example scenario_invalid_resource :
  log (snd (run [lit "nowhere"] fresh (lines ["*IDN?"]%string)))
  = [Call CResourceManager Returns;
     Call (COpen (lit "nowhere")) (Raises rsrc_nfound);
     Stderr (lit "Error: " ++ rsrc_nfound)]
  /\ exit_status (fst (run [lit "nowhere"] fresh (lines ["*IDN?"]%string)))
     = 1%Z.
Proof. repeat split. Qed.

End OnTheBench.

(** * Further properties of the script *)

(** ** White space around a line *)

Lemma lstrip_spaces ws : forallb isspace ws = true -> lstrip ws = [].
Proof.
  induction ws as [|a ws IH]; cbn [forallb lstrip]; [reflexivity|].
  intros Hw. apply andb_true_iff in Hw. destruct Hw as [-> Hw]. now apply IH.
Qed.

Lemma lstrip_after_spaces ws s :
  forallb isspace ws = true -> lstrip (ws ++ s) = lstrip s.
Proof.
  induction ws as [|a ws IH]; cbn [forallb app lstrip]; [reflexivity|].
  intros Hw. apply andb_true_iff in Hw. destruct Hw as [-> Hw]. now apply IH.
Qed.

Lemma lstrip_nil_app s t : lstrip s = [] -> lstrip (s ++ t) = lstrip t.
Proof.
  induction s as [|a s IH]; cbn [app lstrip]; [reflexivity|].
  destruct (isspace a); [exact IH|discriminate].
Qed.

Lemma forallb_rev {A} (f : A -> bool) l :
  forallb f (rev l) = forallb f l.
Proof.
  induction l as [|a l IH]; [reflexivity|].
  cbn [rev forallb]. rewrite forallb_app, IH. cbn [forallb].
  rewrite andb_true_r. apply andb_comm.
Qed.

Lemma rstrip_before_spaces s ws :
  forallb isspace ws = true -> rstrip (s ++ ws) = rstrip s.
Proof.
  intros Hw. unfold rstrip. rewrite rev_app_distr.
  now rewrite lstrip_after_spaces by now rewrite forallb_rev.
Qed.

Lemma strip_surrounded ws1 s ws2 :
  forallb isspace ws1 = true ->
  forallb isspace ws2 = true ->
  strip (ws1 ++ s ++ ws2) = strip s.
Proof.
  intros H1 H2. unfold strip. rewrite lstrip_after_spaces by assumption.
  destruct (lstrip s) as [|c t] eqn:E.
  - rewrite lstrip_nil_app by assumption.
    now rewrite lstrip_spaces by assumption.
  - rewrite lstrip_app_nonempty by (rewrite E; discriminate).
    rewrite E. now apply rstrip_before_spaces.
Qed.

(** ** Observations, continued *)

Lemma calls_of_app a b : calls_of (a ++ b) = calls_of a ++ calls_of b.
Proof. apply flat_map_app. Qed.

Lemma replies_of_app a b : replies_of (a ++ b) = replies_of a ++ replies_of b.
Proof. apply flat_map_app. Qed.

Lemma diagnostics_app a b :
  diagnostics (a ++ b) = diagnostics a ++ diagnostics b.
Proof. apply flat_map_app. Qed.

Lemma rhythm_app a b : rhythm (a ++ b) = rhythm a ++ rhythm b.
Proof. apply flat_map_app. Qed.

Lemma cadence_app a b : cadence (a ++ b) = cadence a ++ cadence b.
Proof. apply flat_map_app. Qed.

Lemma iterations_calls lines d :
  iterations lines d -> calls_of d = dispatches d.
Proof.
  induction 1 as [|line d rest ds Hd _ IH]; [reflexivity|].
  rewrite calls_of_app, dispatches_app, IH. f_equal. now destruct Hd.
Qed.

Lemma iterations_diagnostics lines d :
  iterations lines d -> stderr_of d = diagnostics d.
Proof.
  induction 1 as [|line d rest ds Hd _ IH]; [reflexivity|].
  rewrite stderr_of_app, diagnostics_app, IH. f_equal. now destruct Hd.
Qed.

Lemma iterations_rhythm lines d :
  iterations lines d -> rhythm d = cadence d.
Proof.
  induction 1 as [|line d rest ds Hd _ IH]; [reflexivity|].
  rewrite rhythm_app, cadence_app, IH. f_equal. now destruct Hd.
Qed.

Lemma epilogue_calls r c :
  epilogue r c ->
  calls_of c = [CClose] /\ stderr_of c = diagnostics c
  /\ rhythm c = [] /\ cadence c = []
  /\ (r = Ret tt <-> close_calls c = [Returns])
  /\ forall msg, r <> Raise (Exception msg).
Proof.
  destruct 1; repeat split; try discriminate; reflexivity.
Qed.

Lemma refusal_calls args msg p :
  refusal args msg p ->
  (calls_of p = [CResourceManager]
   \/ calls_of p = [CResourceManager; COpen (resource args)]
   \/ calls_of p
      = [CResourceManager; COpen (resource args); CSetTimeout (timeout args)])
  /\ diagnostics p = [lit "Error: " ++ msg]
  /\ rhythm p = [] /\ cadence p = [].
Proof.
  destruct 1; repeat split; auto.
Qed.

(** ** The log against the collaborator *)

Section Faithful.

Context {V : Type} {visa_lib : Visa V} {argparse_lib : Argparse}.

Lemma replay_app a b (v : V) :
  replay (a ++ b) v
  = let (ra, va) := replay a v in
    let (rb, vb) := replay b va in
    (ra ++ rb, vb).
Proof.
  revert v. induction a as [|c a IH]; intros v; cbn [app replay].
  - now destruct (replay b v).
  - destruct (perform c v) as [r v1]. rewrite IH.
    destruct (replay a v1) as [ra va]. now destruct (replay b va).
Qed.

Lemma keeps_ret {A} (a : A) : keeps (V := V) (ret a).
Proof. now intros v0 w F. Qed.

Lemma keeps_sys_exit {A} code : keeps (V := V) (@sys_exit V A code).
Proof. now intros v0 w F. Qed.

Lemma keeps_readlines : keeps (V := V) readlines.
Proof. now intros v0 w F. Qed.

Lemma keeps_emit e :
  calls_of [e] = [] -> replies_of [e] = [] -> keeps (V := V) (emit e).
Proof.
  intros Hc Hr v0 w F. unfold faithful, emit in *. cbn [snd log visa].
  now rewrite calls_of_app, replies_of_app, Hc, Hr, !app_nil_r.
Qed.

Lemma keeps_bind {A B} (m : M V A) (k : A -> M V B) :
  keeps m -> (forall a, keeps (k a)) -> keeps (bind m k).
Proof.
  intros Hm Hk v0 w F. unfold bind. specialize (Hm v0 w F).
  destruct (m w) as [[a|e] w']; cbn [snd] in *.
  - now apply Hk.
  - exact Hm.
Qed.

Lemma keeps_try_except {A} (body : M V A) handler :
  keeps body -> (forall msg, keeps (handler msg)) ->
  keeps (try_except body handler).
Proof.
  intros Hb Hh v0 w F. unfold try_except. specialize (Hb v0 w F).
  destruct (body w) as [[a|[msg|code]] w']; cbn [snd] in *.
  - exact Hb.
  - now apply Hh.
  - exact Hb.
Qed.

Lemma keeps_invoke {A} c (f : A -> reply) (op : V -> result A * V) :
  (forall v, perform c v = let (r, v') := op v in (reply_of f r, v')) ->
  keeps (invoke c f op).
Proof.
  intros Hp v0 w F. unfold faithful, invoke in *.
  specialize (Hp (visa w)).
  destruct (op (visa w)) as [r v'].
  assert (E : replay (calls_of (log w ++ [Call c (reply_of f r)])) v0
              = (replies_of (log w ++ [Call c (reply_of f r)]), v')).
  { rewrite calls_of_app, replies_of_app, replay_app, F.
    cbn [calls_of replies_of flat_map app replay]. now rewrite Hp. }
  now destruct r.
Qed.

Lemma keeps_process_line line : keeps (process_line line).
Proof.
  unfold process_line. destruct (skipped (strip line)); [apply keeps_ret|].
  apply keeps_bind; [|intros _; now apply keeps_emit].
  destruct (contains (ch "?") (strip line)); apply keeps_try_except.
  - apply keeps_bind; [now apply keeps_invoke|].
    intros response. now apply keeps_emit.
  - intros msg. now apply keeps_emit.
  - now apply keeps_invoke.
  - intros msg. now apply keeps_emit.
Qed.

Lemma keeps_for_each lines : keeps (for_each lines process_line).
Proof.
  induction lines as [|line rest IH]; cbn [for_each].
  - apply keeps_ret.
  - apply keeps_bind; [apply keeps_process_line|now intros _].
Qed.

Lemma keeps_main_body args : keeps (main_body args).
Proof.
  unfold main_body. apply keeps_try_except.
  - apply keeps_bind; [now apply keeps_invoke|intros _].
    apply keeps_bind; [now apply keeps_invoke|intros _].
    apply keeps_bind; [now apply keeps_invoke|intros _].
    apply keeps_bind; [apply keeps_readlines|intros lines].
    apply keeps_bind; [apply keeps_for_each|intros _].
    now apply keeps_invoke.
  - intros msg. apply keeps_bind; [now apply keeps_emit|intros _].
    apply keeps_sys_exit.
Qed.

Lemma keeps_script argv : keeps (script argv).
Proof.
  unfold script. destruct pyvisa_installed.
  - unfold main. apply keeps_bind; [|intros args; apply keeps_main_body].
    unfold parser_parse_args. destruct (parse_args argv).
    + apply keeps_ret.
    + apply keeps_bind; [now apply keeps_emit|intros _; apply keeps_sys_exit].
    + apply keeps_bind; [now apply keeps_emit|intros _; apply keeps_sys_exit].
  - apply keeps_bind; [now apply keeps_emit|intros _; apply keeps_sys_exit].
Qed.


End Faithful.

(** ** The course of a run *)

Section Course.

Context {V : Type} {visa_lib : Visa V} {argparse_lib : Argparse}.

Lemma process_line_strip line line' (w : world V) :
  strip line = strip line' -> process_line line w = process_line line' w.
Proof. unfold process_line. now intros ->. Qed.

Lemma for_each_strip lines lines' (w : world V) :
  map strip lines = map strip lines' ->
  for_each lines process_line w = for_each lines' process_line w.
Proof.
  revert lines' w.
  induction lines as [|line rest IH]; intros [|line' rest'] w E;
    try discriminate; [reflexivity|].
  cbn [map] in E. injection E as E1 E2.
  cbn [for_each]. unfold bind. rewrite (process_line_strip line line' w E1).
  destruct (process_line line' w) as [[[]|e] w']; [now apply IH|reflexivity].
Qed.

Lemma for_each_app before after (w : world V) :
  for_each (before ++ after) process_line w
  = (for_each before process_line ;; for_each after process_line) w.
Proof.
  revert w. induction before as [|line rest IH]; intros w.
  - reflexivity.
  - cbn [app for_each]. unfold bind at 1 2 3.
    destruct (process_line line w) as [[[]|e] w']; [|reflexivity].
    rewrite IH. reflexivity.
Qed.

Lemma for_each_all_skipped lines (w : world V) :
  forallb (fun line => skipped (strip line)) lines = true ->
  for_each lines process_line w = (Ret tt, w).
Proof.
  induction lines as [|line rest IH]; cbn [forallb for_each];
    [reflexivity|].
  intros Hs. apply andb_true_iff in Hs. destruct Hs as [Hs Hrest].
  unfold bind. rewrite (process_line_skipped line w Hs). now apply IH.
Qed.

(** Two inputs on which the loop does the same give the same run. *)
Lemma run_same_loop argv (v0 : V) input input' :
  (forall w : world V,
      for_each input process_line w = for_each input' process_line w) ->
  fst (run argv v0 input) = fst (run argv v0 input')
  /\ log (snd (run argv v0 input)) = log (snd (run argv v0 input'))
  /\ visa (snd (run argv v0 input)) = visa (snd (run argv v0 input')).
Proof.
  intros Hloop.
  destruct pyvisa_installed eqn:Hi.
  - destruct (parse_args argv) as [args| |] eqn:Hp.
    + rewrite !(run_parsed argv v0 _ Hi Hp).
      destruct (connection args v0) as [v1|msg] eqn:Hc.
      * rewrite !(main_body_loop args v0 _ [] Hc).
        unfold try_except, bind. now rewrite !Hloop.
      * exact (main_body_refused_input args v0 _ _ [] Hc).
    + unfold run, script, main, parser_parse_args. rewrite Hi, Hp.
      now repeat split.
    + unfold run, script, main, parser_parse_args. rewrite Hi, Hp.
      now repeat split.
  - unfold run, script. rewrite Hi. now repeat split.
Qed.



(** X3.  A run depends on its input lines through their trimmed text
    only: two inputs whose lines are the same once trimmed give the same
    exit status, the same log and the same collaborator state. *)
Theorem run_depends_on_trimmed_lines argv (v0 : V) input input' :
  map strip input = map strip input' ->
  fst (run argv v0 input) = fst (run argv v0 input')
  /\ log (snd (run argv v0 input)) = log (snd (run argv v0 input'))
  /\ visa (snd (run argv v0 input)) = visa (snd (run argv v0 input')).
Proof.
  intros E. apply run_same_loop. intros w. now apply for_each_strip.
Qed.

(** X4.  White space before and after a line, of any of the kinds that
    [strip] removes (indentation, tabs, carriage return, line feed),
    changes nothing to what the iteration does with the line. *)
Theorem surrounding_space_is_ignored ws1 line ws2 (w : world V) :
  forallb isspace ws1 = true ->
  forallb isspace ws2 = true ->
  process_line (ws1 ++ line ++ ws2) w = process_line line w.
Proof.
  intros H1 H2. apply process_line_strip. now apply strip_surrounded.
Qed.


(** X6.  An exit status of 0 means one of two things: the parser showed
    its help and nothing else happened, or the whole protocol was carried
    out: the connection was set up, standard input was read to its end,
    the command of every surviving line was sent and [close] returned. *)
Theorem exit_zero_means_done argv (v0 : V) input :
  exit_status (fst (run argv v0 input)) = 0%Z ->
  parse_args argv = HelpExit
  /\ log (snd (run argv v0 input)) = [PrintHelp]
  \/ exists args,
       parse_args argv = Parsed args
       /\ calls_of (log (snd (run argv v0 input))) = protocol args input
       /\ close_calls (log (snd (run argv v0 input))) = [Returns]
       /\ stdin (snd (run argv v0 input)) = [].
Proof.
  destruct (run_shape argv v0 input)
    as [Hi|Hi Hp|Hi Hp|args msg v' p Hi Hp Hc Hr|args v1 r v' d c Hi Hp Hc Hd He];
    cbn [fst snd log stdin exit_status]; try discriminate.
  - intros _. now left.
  - intros Hz. right. exists args. split; [exact Hp|].
    destruct He as [|msg]; [|discriminate Hz].
    rewrite !calls_of_app, !close_calls_app, (iterations_calls Hd),
      (iterations_dispatches Hd), (iterations_close_calls Hd).
    now repeat split.
Qed.


(** X9.  An input made of blank lines and comments only, the empty input
    among them, gives the run of the empty input: when the connection is
    established it is closed right away, and no command is sent, no line
    printed on standard output and nothing flushed. *)
Theorem only_skipped_lines argv (v0 : V) input :
  forallb (fun line => skipped (strip line)) input = true ->
  (fst (run argv v0 input) = fst (run argv v0 [])
   /\ log (snd (run argv v0 input)) = log (snd (run argv v0 []))
   /\ visa (snd (run argv v0 input)) = visa (snd (run argv v0 [])))
  /\ dispatches (log (snd (run argv v0 input))) = []
  /\ rhythm (log (snd (run argv v0 input))) = [].
Proof.
  intros Hs.
  assert (Hsame : fst (run argv v0 input) = fst (run argv v0 [])
     /\ log (snd (run argv v0 input)) = log (snd (run argv v0 []))
     /\ visa (snd (run argv v0 input)) = visa (snd (run argv v0 []))).
  { apply run_same_loop. intros w. now apply for_each_all_skipped. }
  split; [exact Hsame|]. destruct Hsame as (_ & -> & _).
  destruct (run_shape argv v0 [])
    as [Hi|Hi Hp|Hi Hp|args msg v' p Hi Hp Hc Hr|args v1 r v' d c Hi Hp Hc Hd He];
    cbn [snd log]; try (split; reflexivity).
  - rewrite dispatches_app, rhythm_app.
    destruct (refusal_quiet Hr) as (-> & _).
    now destruct (refusal_calls Hr) as (_ & _ & -> & _).
  - inversion Hd; subst. cbn [app].
    rewrite dispatches_app, rhythm_app.
    destruct (epilogue_quiet He) as (-> & _).
    now destruct (epilogue_calls He) as (_ & _ & -> & _).
Qed.

(** X10.  What a run does for its first lines does not depend on the
    lines that follow: everything in the log of a connected run on
    [before], up to its [close], is the beginning of the log of the run
    on [before ++ after], which goes on from there. *)
Theorem earlier_lines_are_unaffected argv args (v0 v1 : V) before after :
  pyvisa_installed = true ->
  parse_args argv = Parsed args ->
  connection args v0 = Ok v1 ->
  exists done r c rest,
    epilogue r c
    /\ log (snd (run argv v0 before)) = done ++ c
    /\ log (snd (run argv v0 (before ++ after))) = done ++ rest
    /\ calls_of done
       = [CResourceManager; COpen (resource args);
          CSetTimeout (timeout args)]
         ++ map dispatch (filter survives before).
Proof.
  intros Hi Hp Hc.
  rewrite !(run_parsed argv v0 _ Hi Hp), !(main_body_loop args v0 _ [] Hc).
  rewrite app_nil_l.
  destruct (for_each_run before (World v1 [] (prologue args)))
    as (v2 & d & E1 & I1).
  cbn [stdin log] in E1.
  destruct (for_each_run after (World v2 [] (prologue args ++ d)))
    as (v3 & d' & E2 & I2).
  cbn [stdin log] in E2.
  unfold try_except, bind. rewrite for_each_app. unfold bind.
  rewrite !E1, E2.
  assert (Hdone : calls_of (prologue args ++ d)
                  = [CResourceManager; COpen (resource args);
                     CSetTimeout (timeout args)]
                    ++ map dispatch (filter survives before)).
  { now rewrite calls_of_app, (iterations_calls I1),
      (iterations_dispatches I1). }
  unfold inst_close, invoke. cbn [visa stdin log].
  destruct (close v2) as [[[]|m] v4]; destruct (close v3) as [[[]|m'] v5];
    cbn [reply_of snd log];
    unfold bind, print_err, emit, sys_exit; cbn [snd log visa stdin];
    exists (prologue args ++ d).
  - exists (Ret tt), [Call CClose Returns]. eexists.
    split; [constructor|]. split; [reflexivity|].
    split; [now rewrite <- !app_assoc|exact Hdone].
  - exists (Ret tt), [Call CClose Returns]. eexists.
    split; [constructor|]. split; [reflexivity|].
    split; [now rewrite <- !app_assoc|exact Hdone].
  - exists (Raise (SystemExit 1)),
      [Call CClose (Raises m); Stderr (lit "Error: " ++ m)]. eexists.
    split; [constructor|]. split; [now rewrite <- !app_assoc|].
    split; [now rewrite <- !app_assoc|exact Hdone].
  - exists (Raise (SystemExit 1)),
      [Call CClose (Raises m); Stderr (lit "Error: " ++ m)]. eexists.
    split; [constructor|]. split; [now rewrite <- !app_assoc|].
    split; [now rewrite <- !app_assoc|exact Hdone].
Qed.

End Course.

(** ** Further runs on the test bench *)

Section FurtherOnTheBench.

Import Bench.

(** Indented lines with Windows line ends against plain ones. *)
Lemma run_depends_on_trimmed_lines_witness :
  map strip
    [lit "  *IDN?" ++ [13%N; 10%N]; lit "OUTP ON" ++ [9%N; 13%N; 10%N]]
  = map strip (lines ["*IDN?"; "OUTP ON"]%string)
  /\ (fst (run demo_argv fresh
             [lit "  *IDN?" ++ [13%N; 10%N];
              lit "OUTP ON" ++ [9%N; 13%N; 10%N]])
      = fst (run demo_argv fresh (lines ["*IDN?"; "OUTP ON"]%string))
      /\ log (snd (run demo_argv fresh
                     [lit "  *IDN?" ++ [13%N; 10%N];
                      lit "OUTP ON" ++ [9%N; 13%N; 10%N]]))
         = log (snd (run demo_argv fresh (lines ["*IDN?"; "OUTP ON"]%string)))
      /\ visa (snd (run demo_argv fresh
                      [lit "  *IDN?" ++ [13%N; 10%N];
                       lit "OUTP ON" ++ [9%N; 13%N; 10%N]]))
         = visa (snd (run demo_argv fresh
                        (lines ["*IDN?"; "OUTP ON"]%string)))).
Proof.
  split; [reflexivity|].
  apply (@run_depends_on_trimmed_lines state bench argparse demo_argv fresh).
  reflexivity.
Defined.

Lemma surrounding_space_is_ignored_witness :
  forallb isspace [32%N; 9%N] = true
  /\ forallb isspace [13%N; 10%N] = true
  /\ process_line ([32%N; 9%N] ++ lit "*IDN?" ++ [13%N; 10%N])
       (World fresh [] [])
     = process_line (lit "*IDN?") (World fresh [] []).
Proof.
  split; [reflexivity|]. split; [reflexivity|].
  apply (@surrounding_space_is_ignored state bench [32%N; 9%N] (lit "*IDN?")
           [13%N; 10%N] (World fresh [] [])); reflexivity.
Defined.

Lemma exit_zero_means_done_witness :
  exit_status (fst (run demo_argv fresh demo_input)) = 0%Z
  /\ (parse_args demo_argv = HelpExit
      /\ log (snd (run demo_argv fresh demo_input)) = [PrintHelp]
      \/ exists args,
           parse_args demo_argv = Parsed args
           /\ calls_of (log (snd (run demo_argv fresh demo_input)))
              = protocol args demo_input
           /\ close_calls (log (snd (run demo_argv fresh demo_input)))
              = [Returns]
           /\ stdin (snd (run demo_argv fresh demo_input)) = []).
Proof.
  split; [reflexivity|].
  apply (@exit_zero_means_done state bench argparse demo_argv fresh
           demo_input).
  reflexivity.
Defined.

Lemma only_skipped_lines_witness :
  forallb (fun line => skipped (strip line))
    (lines ["# setup"; ""; "   "; "// end"]%string) = true
  /\ ((fst (run demo_argv fresh (lines ["# setup"; ""; "   "; "// end"]%string))
       = fst (run demo_argv fresh [])
       /\ log (snd (run demo_argv fresh
                      (lines ["# setup"; ""; "   "; "// end"]%string)))
          = log (snd (run demo_argv fresh []))
       /\ visa (snd (run demo_argv fresh
                       (lines ["# setup"; ""; "   "; "// end"]%string)))
          = visa (snd (run demo_argv fresh [])))
      /\ dispatches
           (log (snd (run demo_argv fresh
                        (lines ["# setup"; ""; "   "; "// end"]%string))))
         = []
      /\ rhythm
           (log (snd (run demo_argv fresh
                        (lines ["# setup"; ""; "   "; "// end"]%string))))
         = []).
Proof.
  split; [reflexivity|].
  apply (@only_skipped_lines state bench argparse demo_argv fresh).
  reflexivity.
Defined.

Lemma earlier_lines_are_unaffected_witness :
  pyvisa_installed = true
  /\ parse_args demo_argv = Parsed demo_args
  /\ connection demo_args fresh = Ok fresh
  /\ exists done r c rest,
       epilogue r c
       /\ log (snd (run demo_argv fresh (lines ["*IDN?"]%string)))
          = done ++ c
       /\ log (snd (run demo_argv fresh
                      (lines ["*IDN?"]%string ++ lines ["SYST:LOCK"]%string)))
          = done ++ rest
       /\ calls_of done
          = [CResourceManager; COpen (resource demo_args);
             CSetTimeout (timeout demo_args)]
            ++ map dispatch (filter survives (lines ["*IDN?"]%string)).
Proof.
  split; [reflexivity|]. split; [reflexivity|]. split; [reflexivity|].
  apply (@earlier_lines_are_unaffected state bench argparse demo_argv
           demo_args fresh fresh); reflexivity.
Defined.

(** Without pyvisa the guard of the import ends the run before the command
    line is looked at, here an empty one that the parser would reject. *)
Example import_guard_comes_first :
  @run state Bare.bare argparse [] fresh demo_input
  = (Raise (SystemExit 1), World fresh demo_input [Stderr import_hint]).
Proof. reflexivity. Qed.

(** The wedged bench: the write of [SYST:LOCK] returns, the query after it
    and [close] raise, and each has its line on standard error. *)
Example wedged_run :
  stderr_of
    (log (snd (run demo_argv fresh (lines ["SYST:LOCK"; "*IDN?"]%string))))
  = [lit "Error querying '*IDN?': " ++ tmo; lit "Error: " ++ closing_failed]
  /\ rhythm
       (log (snd (run demo_argv fresh (lines ["SYST:LOCK"; "*IDN?"]%string))))
     = [Sent; Flushed; Sent; Flushed]
  /\ exit_status
       (fst (run demo_argv fresh (lines ["SYST:LOCK"; "*IDN?"]%string)))
     = 1%Z.
Proof. repeat split. Qed.

End FurtherOnTheBench.
